(** * Dialog_Char: the adversarial training coordinator and its data loading

    A shallow embedding of [module/data.py], [module/train.py] and the record
    emission of [setup.py].  Python exceptions are an explicit result type,
    the trainer's side effects (optimizer steps, checkpoints, prints, the
    record file) are events appended to a world that is threaded through a
    state-and-exception monad, and dictionaries are finite maps keyed by
    strings. *)

From Stdlib Require Import ZArith QArith Qround List String Permutation Lia Bool.
From stdpp Require Import base option list gmap strings pretty.

Open Scope string_scope.
Open Scope Z_scope.

(** ** Python basics: exceptions and results *)

Module Py.

Inductive exn : Type :=
| AttributeError (name : string)
| KeyError (key : string)
| UnboundLocalError (var : string)
| IndexError
| ZeroDivisionError
| TypeError (what : string)
| FileNotFoundError (path : string).

Inductive result (A : Type) : Type :=
| Ok (a : A)
| Raise (e : exn).

Arguments Ok {A} a.
Arguments Raise {A} e.

#[global] Instance result_ret : MRet result := fun A a => Ok a.

#[global] Instance result_bind : MBind result := fun A B f m =>
  match m with
  | Ok a => f a
  | Raise e => Raise e
  end.

#[global] Instance result_fmap : FMap result := fun A B f m =>
  match m with
  | Ok a => Ok (f a)
  | Raise e => Raise e
  end.

(** [d[key]] on a dict: [KeyError] when the key is absent. *)
Definition dict_get {V} (d : gmap string V) (key : string) : result V :=
  match d !! key with
  | Some v => Ok v
  | None => Raise (KeyError key)
  end.

(** [l[i]] for a non-negative index: [IndexError] past the end. *)
Definition list_get {A} (l : list A) (i : nat) : result A :=
  match l !! i with
  | Some x => Ok x
  | None => Raise IndexError
  end.

(** The position a slice bound [t] denotes in a list of length [len]:
    negative bounds count from the end, and both ends clamp. *)
Definition slice_bound (t : Z) (len : nat) : nat :=
  if t <? 0 then Z.to_nat (Z.max 0 (Z.of_nat len + t))
  else Nat.min (Z.to_nat t) len.

(** [l[:t]] and [l[t:]]. *)
Definition slice_to {A} (t : Z) (l : list A) : list A :=
  take (slice_bound t (length l)) l.

Definition slice_from {A} (t : Z) (l : list A) : list A :=
  drop (slice_bound t (length l)) l.

(** Truth value of a [str]: the empty string is false. *)
Definition truthy_str (s : string) : bool := negb (String.eqb s "").

End Py.

Import Py.

(** ** module/data.py *)

Module Data.

(** A JSON object of the data files: field name to text. *)
Abbreviation record := (gmap string string).

(** The attributes of [config] that data.py reads. *)
Record config : Type := Config {
  mode : string;
  model_type : string;
  character : string;
  data_threshold : Z;
  batch_size : Z
}.

(** [Dataset]: [model_type] and [threshold] are assigned only in pretrain
    mode, and [None] stands for an attribute that was never set; [character]
    is Python's [None] outside pretrain mode. *)
Record Dataset : Type := MkDataset {
  ds_mode : string;
  ds_model_type : option string;
  ds_character : option string;
  ds_threshold : option Z;
  ds_data : list record
}.

Record DataLoader : Type := MkDataLoader {
  dl_dataset : Dataset;
  dl_batch_size : Z;
  dl_shuffle : bool;
  dl_num_workers : Z;
  dl_pin_memory : bool
}.

(** An attribute that [__init__] assigns on some paths only. *)
Definition attr {A} (name : string) (o : option A) : result A :=
  match o with
  | Some a => Ok a
  | None => Raise (AttributeError name)
  end.

(** [f"{x}"] of an optional string. *)
Definition fmt (o : option string) : string := default "None" o.

(** The file [load_data] opens. *)
Definition data_file (self_mode : string) (self_character split : option string)
    : string :=
  if String.eqb self_mode "pretrain"
  then "data/" +:+ fmt self_character +:+ ".json"
  else "data/" +:+ fmt split +:+ ".json".

Section Files.

(** The JSON files on disk: path to the parsed list of objects. *)
Variable fs : string -> option (list record).

Definition open_json (f_name : string) : result (list record) :=
  match fs f_name with
  | Some data => Ok data
  | None => Raise (FileNotFoundError f_name)
  end.

(** [Dataset.load_data], on the attributes [__init__] has assigned so far. *)
Definition load_data (self_mode : string) (self_character : option string)
    (self_threshold : option Z) (split : option string) : result (list record) :=
  let f_name := data_file self_mode self_character split in
  data ← open_json f_name;
  if String.eqb self_mode "pretrain" && bool_decide (split = Some "train") then
    t ← attr "threshold" self_threshold;
    mret (slice_to t data)
  else if String.eqb self_mode "pretrain" && bool_decide (split = Some "valid") then
    t ← attr "threshold" self_threshold;
    mret (slice_from t data)
  else mret data.

(** [Dataset.__init__]. *)
Definition Dataset_init (cfg : config) (split : option string) : result Dataset :=
  let pre := String.eqb (mode cfg) "pretrain" in
  let self_model_type := if pre then Some (model_type cfg) else None in
  let self_character := if pre then Some (character cfg) else None in
  let self_threshold := if pre then Some (data_threshold cfg) else None in
  data ← load_data (mode cfg) self_character self_threshold split;
  mret (MkDataset (mode cfg) self_model_type self_character self_threshold data).

(** [load_dataloader]. *)
Definition load_dataloader (cfg : config) (split : option string) : result DataLoader :=
  let _shuffle := true in
  let _shuffle := if truthy_str (mode cfg) then false else _shuffle in
  ds ← Dataset_init cfg split;
  mret (MkDataLoader ds (batch_size cfg) _shuffle 2 true).

End Files.

(** The file a [Dataset] built from [cfg] opens. *)
Definition config_file (cfg : config) (split : option string) : string :=
  data_file (mode cfg)
    (if String.eqb (mode cfg) "pretrain" then Some (character cfg) else None) split.

(** [Dataset.__len__]. *)
Definition Dataset_len (self : Dataset) : nat := length (ds_data self).

(** [Dataset.__getitem__] at an index of the sampler (non-negative): the
    third component is [pred], present on the discriminator-pretraining path. *)
Definition Dataset_getitem (self : Dataset) (idx : nat)
    : result (string * string * option string) :=
  disc ← (if String.eqb (ds_mode self) "pretrain"
          then mt ← attr "model_type" (ds_model_type self);
               mret (String.eqb mt "discriminator")
          else mret false);
  if disc : bool then
    r ← list_get (ds_data self) idx;
    uttr ← dict_get r "uttr";
    r ← list_get (ds_data self) idx;
    resp ← dict_get r "resp";
    r ← list_get (ds_data self) idx;
    pred ← dict_get r "pred";
    mret (uttr, resp, Some pred)
  else
    r ← list_get (ds_data self) idx;
    uttr ← dict_get r "uttr";
    r ← list_get (ds_data self) idx;
    resp ← dict_get r "resp";
    mret (uttr, resp, None).

End Data.

(** ** setup.py: the records the data-acquisition step writes *)

Module Setup.

(** The dict literal of [process_dialogue_data] (and of [split_dialog]). *)
Definition make_record (uttr resp : string) : Data.record :=
  {[ "x" := uttr; "y" := resp ]}.

(** The closing loop of [process_dialogue_data]: one record per pair, leaving
    the loop once [volumn_cnt] equals [volumn]. *)
Fixpoint emit_records (volumn volumn_cnt : Z) (pairs : list (string * string))
    : list Data.record :=
  match pairs with
  | [] => []
  | (uttr, resp) :: rest =>
      let volumn_cnt := volumn_cnt + 1 in
      make_record uttr resp ::
        (if volumn_cnt =? volumn then [] else emit_records volumn volumn_cnt rest)
  end.

End Setup.

(** ** Tensor scalars and Python floats *)

Module Torch.

(** A float, idealised: an exact rational or one of the IEEE special values.
    Rounding of finite results is left out; signed zeros are one zero. *)
Inductive tfloat : Type :=
| Fin (q : Q)
| PInf
| NInf
| NaN.

Definition Qltb (x y : Q) : bool := negb (Qle_bool y x).

Definition of_Z (z : Z) : tfloat := Fin (inject_Z z).

Definition of_nat (n : nat) : tfloat := of_Z (Z.of_nat n).

Definition is_finite (x : tfloat) : bool :=
  match x with Fin _ => true | _ => false end.

(** [-x]. *)
Definition tneg (x : tfloat) : tfloat :=
  match x with
  | Fin q => Fin (- q)
  | PInf => NInf
  | NInf => PInf
  | NaN => NaN
  end.

(** [x + y]. *)
Definition tadd (x y : tfloat) : tfloat :=
  match x, y with
  | NaN, _ | _, NaN => NaN
  | PInf, NInf | NInf, PInf => NaN
  | PInf, _ | _, PInf => PInf
  | NInf, _ | _, NInf => NInf
  | Fin a, Fin b => Fin (a + b)
  end.

(** [x / y] on tensors: division by zero gives an infinity or a NaN. *)
Definition tdiv (x y : tfloat) : tfloat :=
  match x, y with
  | NaN, _ | _, NaN => NaN
  | Fin a, Fin b =>
      if Qeq_bool b 0 then
        if Qeq_bool a 0 then NaN else if Qltb 0 a then PInf else NInf
      else Fin (a / b)
  | Fin _, _ => Fin 0
  | PInf, Fin b => if Qltb b 0 then NInf else PInf
  | NInf, Fin b => if Qltb b 0 then PInf else NInf
  | _, _ => NaN
  end.

(** [x > y] and [x >= y]: false as soon as one side is a NaN. *)
Definition tgtb (x y : tfloat) : bool :=
  match x, y with
  | NaN, _ | _, NaN => false
  | PInf, PInf => false
  | PInf, _ => true
  | Fin a, Fin b => Qltb b a
  | Fin _, NInf => true
  | _, _ => false
  end.

Definition tgeb (x y : tfloat) : bool :=
  match x, y with
  | NaN, _ | _, NaN => false
  | PInf, _ => true
  | _, NInf => true
  | Fin a, Fin b => Qle_bool b a
  | _, _ => false
  end.

(** [torch.log], over a logarithm [ln] on the positive rationals: the
    logarithm of zero is minus infinity, of a negative number a NaN. *)
Definition tlog (ln : Q -> Q) (x : tfloat) : tfloat :=
  match x with
  | Fin q => if Qeq_bool q 0 then NInf else if Qltb q 0 then NaN else Fin (ln q)
  | PInf => PInf
  | NInf => NaN
  | NaN => NaN
  end.

(** Python's [a / n] for a number [a] and an int [n]. *)
Definition py_div (a : tfloat) (n : Z) : result tfloat :=
  if n =? 0 then Raise ZeroDivisionError else Ok (tdiv a (of_Z n)).

(** Python's [a % n] on ints. *)
Definition py_mod (a n : Z) : result Z :=
  if n =? 0 then Raise ZeroDivisionError else Ok (a mod n).

(** Python's [int(x)] on a finite float: truncation toward zero. *)
Definition py_int (q : Q) : Z := Z.quot (Qnum q) (Zpos (Qden q)).

(** The integer nearest to [q], ties to even. *)
Definition round_half_even (q : Q) : Z :=
  let f := Qfloor q in
  let r := (q - inject_Z f)%Q in
  if Qltb r 0.5 then f
  else if Qltb 0.5 r then f + 1
  else if Z.even f then f else f + 1.

(** Python's [round(x, 3)]. *)
Definition round3 (x : tfloat) : tfloat :=
  match x with
  | Fin q => Fin (inject_Z (round_half_even (q * 1000)) / 1000)
  | other => other
  end.

End Torch.

Import Torch.

(** ** module/train.py *)

Module Train.

Inductive side : Type := G | D.

(** The objects [Trainer.__init__] stores on [self]. *)
Inductive obj : Type :=
| Model (s : side)
| Tokenizer (s : side)
| Optimizer (s : side)
| Scheduler (s : side)
| Scaler
| Method (name : string).

(** Values of an epoch record. *)
Inductive pyval : Type :=
| VInt (z : Z)
| VFloat (x : tfloat)
| VStr (s : string).

Abbreviation record_dict := (gmap string pyval).

(** What the trainer does to the world outside its local variables.
    [Backward] is [scaler.scale(loss).backward()], recorded with the loss it
    is called on; what autograd makes of that loss is outside the model. *)
Inductive event : Type :=
| TrainMode (m : obj)
| EvalMode (m : obj)
| Backward (which : side) (loss : tfloat)
| Unscale (o : obj)
| ClipGrad (m : obj) (max_norm : Q)
| OptStep (o : obj)
| ScalerUpdate
| ZeroGrad (o : obj)
| SchedStep (s : obj) (loss : tfloat)
| SaveCkpt (epoch : Z) (ckpt : string) (m o : obj)
| Print (line : list pyval)
| PrintStop
| JsonDump (path : string) (records : list record_dict).

(** The world: the events so far (latest first), the state of the random
    generator and the number of clock readings taken. *)
Record world : Type := World {
  events : list event;
  rng : nat;
  ticks : nat
}.

Definition world0 : world := World [] 0 0.

(** Events in the order they happened. *)
Definition history (w : world) : list event := rev (events w).

(** State and exceptions: an exception keeps the world reached so far. *)
Definition M (A : Type) : Type := world -> result A * world.

#[global] Instance M_ret : MRet M := fun A a w => (Ok a, w).

#[global] Instance M_bind : MBind M := fun A B f m w =>
  match m w with
  | (Ok a, w') => f a w'
  | (Raise e, w') => (Raise e, w')
  end.

Definition lift {A} (r : result A) : M A := fun w => (r, w).

Definition raise {A} (e : exn) : M A := lift (Raise e).

Definition emit (e : event) : M unit := fun w =>
  (Ok tt, World (e :: events w) (rng w) (ticks w)).

(** A batch as the loader collates it: utterances and responses. *)
Definition batch : Type := list string * list string.

(** [BatchEncoding]: one row of ids and one of mask bits per text. *)
Record encoding : Type := Encoding {
  input_ids : list (list Z);
  attention_mask : list (list Z)
}.

(** The discriminator's output. *)
Record d_out : Type := DOut {
  logit : list tfloat;
  loss : tfloat
}.

(** The attributes of [config] the trainer copies, and the two loaders. *)
Record Trainer : Type := MkTrainer {
  n_epochs : Z;
  iters_to_accumulate : Z;
  early_stop : bool;
  patience : Z;
  clip : Q;
  max_len : Z;
  g_ckpt : string;
  d_ckpt : string;
  train_dataloader : list batch;
  valid_dataloader : list batch
}.

Definition record_path : string := "ckpt/train.json".

Definition record_keys : list string :=
  ["epoch"; "g_train_loss"; "g_valid_loss"; "d_train_loss"; "d_valid_loss";
   "g_lr"; "d_lr"; "epoch_time"].

(** Every object attribute and method the two plain classes [TrainerBase]
    and [Trainer] define (the scalar attributes are the fields of [Trainer]). *)
Definition trainer_objects : gmap string obj :=
  list_to_map
    [("scaler", Scaler);
     ("g_model", Model G); ("d_model", Model D);
     ("g_tokenizer", Tokenizer G); ("d_tokenizer", Tokenizer D);
     ("g_optimizer", Optimizer G); ("d_optimizer", Optimizer D);
     ("g_scheduler", Scheduler G); ("d_scheduler", Scheduler D);
     ("measure_time", Method "measure_time"); ("tokenize", Method "tokenize");
     ("generate", Method "generate"); ("save_ckpt", Method "save_ckpt");
     ("print_epoch", Method "print_epoch"); ("get_losses", Method "get_losses");
     ("train", Method "train"); ("train_epoch", Method "train_epoch");
     ("valid_epoch", Method "valid_epoch")].

(** [self.name] for an object or a method. *)
Definition self_attr (name : string) : M obj :=
  match trainer_objects !! name with
  | Some o => mret o
  | None => raise (AttributeError name)
  end.

(** [x[index]] for a tensor of indices. *)
Fixpoint index_select {A} (x : list A) (index : list nat) : result (list A) :=
  match index with
  | [] => Ok []
  | i :: rest =>
      a ← list_get x i;
      xs ← index_select x rest;
      mret (a :: xs)
  end.

(** [x[mask]] for a boolean mask of the same shape. *)
Definition masked_select {A} (x : list A) (mask : list bool) : result (list A) :=
  if Nat.eqb (length x) (length mask)
  then Ok (fst <$> List.filter snd (zip x mask))
  else Raise IndexError.

(** [pos.sum()]. *)
Definition count_true (pos : list bool) : nat := length (List.filter id pos).

(** [torch.cat((torch.zeros(batch_size), torch.ones(batch_size)))]. *)
Definition d_labels_of (batch_size : nat) : list Z :=
  (repeat 0 batch_size ++ repeat 1 batch_size)%list.

(** [measure_time]. *)
Definition measure_time (start_time end_time : Q) : string :=
  let elapsed_time := (end_time - start_time)%Q in
  let elapsed_min := py_int (elapsed_time / 60) in
  let elapsed_sec := py_int (elapsed_time - inject_Z (elapsed_min * 60)) in
  pretty elapsed_min +:+ "m " +:+ pretty elapsed_sec +:+ "s".

(** A number read back from a record. *)
Definition as_float (v : pyval) : result tfloat :=
  match v with
  | VInt z => Ok (of_Z z)
  | VFloat x => Ok x
  | VStr _ => Raise (TypeError "comparison of float and str")
  end.

(** The local variables of an epoch pass that are read before they are
    written in the loop: name to value. *)
Abbreviation locals := (gmap string tfloat).

(** [g_epoch_loss, d_epoch_loss = 0, 0]. *)
Definition epoch_locals : locals :=
  {[ "g_epoch_loss" := Fin 0; "d_epoch_loss" := Fin 0 ]}.

Definition load_local (env : locals) (name : string) : M tfloat :=
  match env !! name with
  | Some v => mret v
  | None => raise (UnboundLocalError name)
  end.

(** The outcome of one pass through a loop body. *)
Inductive control (S : Type) : Type :=
| Next (s : S)
| Break (s : S).

Arguments Next {S} s.
Arguments Break {S} s.

(** The local variables of [train]. *)
Record train_state : Type := TrainState {
  records : list record_dict;
  cur_patience : Z;
  g_best_loss : tfloat;
  d_best_loss : tfloat
}.

Section Collaborators.

(** The tokenizers, the two models, the random generator, the clock and the
    optimizers' learning rates are outside the repository's code. *)
Variable tokenizer : side -> list string -> encoding.
Variable g_generate : list (list Z) -> list (list Z) -> Z -> list (list Z).
Variable batch_decode : list (list Z) -> list string.
Variable d_model : list (list Z) -> list (list Z) -> list Z -> d_out.
Variable randperm : nat -> nat -> list nat.
Variable ln : Q -> Q.
Variable clock : nat -> Q.
Variable lr : side -> list event -> tfloat.

Variable self : Trainer.

(** [torch.randperm(n)]: draws from the generator and advances it. *)
Definition torch_randperm (n : nat) : M (list nat) := fun w =>
  (Ok (randperm (rng w) n), World (events w) (S (rng w)) (ticks w)).

(** [time.time()]. *)
Definition time_time : M Q := fun w =>
  (Ok (clock (ticks w)), World (events w) (rng w) (S (ticks w))).

(** [optimizer.param_groups[0]['lr']]. *)
Definition current_lr (s : side) : M tfloat := fun w => (Ok (lr s (history w)), w).

(** [TrainerBase.tokenize]. *)
Definition tokenize (s : side) (tokenizer_inputs : list string) : encoding :=
  tokenizer s tokenizer_inputs.

(** [TrainerBase.generate]. *)
Definition generate (uttr : list string) : list string :=
  let g_encodings := tokenize G uttr in
  let pred := g_generate (input_ids g_encodings) (attention_mask g_encodings)
                (max_len self) in
  batch_decode pred.

(** [TrainerBase.save_ckpt]. *)
Definition save_ckpt (epoch : Z) (ckpt : string) (model optimizer : obj) : M unit :=
  emit (SaveCkpt epoch ckpt model optimizer).

(** The three gathers of [get_losses] under one index tensor. *)
Definition shuffle_inputs (d_ids d_masks : list (list Z)) (d_labels : list Z)
    (d_indice : list nat) : result (list (list Z) * list (list Z) * list Z) :=
  d_ids ← index_select d_ids d_indice;
  d_masks ← index_select d_masks d_indice;
  d_labels ← index_select d_labels d_indice;
  mret (d_ids, d_masks, d_labels).

(** [get_losses]: the predictions and the responses, tokenized together. *)
Definition d_encodings_of (batch : batch) : encoding :=
  let uttr := batch.1 in
  let resp := batch.2 in
  let pred := generate uttr in
  tokenize D (pred ++ resp)%list.

(** [get_losses] up to the shuffle: the discriminator's inputs. *)
Definition discriminator_inputs (batch : batch)
    : M (list (list Z) * list (list Z) * list Z) :=
  let uttr := batch.1 in
  let batch_size := length uttr in
  let d_encodings := d_encodings_of batch in
  let d_ids := input_ids d_encodings in
  let d_masks := attention_mask d_encodings in
  let d_labels := d_labels_of batch_size in
  d_indice ← torch_randperm (batch_size * 2);
  lift (shuffle_inputs d_ids d_masks d_labels d_indice).

(** [-torch.log(pos.sum() / batch_size)]. *)
Definition generator_loss (count batch_size : nat) : tfloat :=
  tneg (tlog ln (tdiv (of_nat count) (of_nat batch_size))).

(** [get_losses]. *)
Definition get_losses (batch : batch) : M (tfloat * tfloat) :=
  let batch_size := length batch.1 in
  '(d_ids, d_masks, d_labels) ← discriminator_inputs batch;
  let d_outs := d_model d_ids d_masks d_labels in
  sel ← lift (masked_select (logit d_outs) (Z.eqb 1 <$> d_labels));
  let pos := (fun x => tgtb x (Fin 0.5)) <$> sel in
  let g_loss := generator_loss (count_true pos) batch_size in
  mret (g_loss, loss d_outs).

(** [(idx % self.iters_to_accumulate == 0) or (idx == tot_len)]. *)
Definition step_due (idx tot_len : Z) : result bool :=
  r ← py_mod idx (iters_to_accumulate self);
  mret ((r =? 0) || (idx =? tot_len)).

(** The body of the loop of [train_epoch], for the batch at position
    [idx] of the enumeration. *)
Definition train_step (tot_len : nat) (idx : nat) (batch : batch) (env : locals)
    : M locals :=
  let idx := Z.of_nat idx + 1 in
  '(g_loss, d_loss) ← get_losses batch;
  let g_loss := tdiv g_loss (of_Z (iters_to_accumulate self)) in
  let d_loss := tdiv d_loss (of_Z (iters_to_accumulate self)) in
  emit (Backward G g_loss);;
  emit (Backward D d_loss);;
  due ← lift (step_due idx (Z.of_nat tot_len));
  (if due : bool then
     o ← self_attr "gen_optimizer";
     emit (Unscale o);;
     o ← self_attr "dis_optimizer";
     emit (Unscale o);;
     m ← self_attr "generator";
     emit (ClipGrad m (clip self));;
     m ← self_attr "discriminator";
     emit (ClipGrad m (clip self));;
     o ← self_attr "gen_optimizer";
     emit (OptStep o);;
     o ← self_attr "dis_optimizer";
     emit (OptStep o);;
     emit ScalerUpdate;;
     o ← self_attr "gen_optimizer";
     emit (ZeroGrad o);;
     o ← self_attr "dis_optimizer";
     emit (ZeroGrad o)
   else mret tt);;
  v ← load_local env "gen_epoch_loss";
  let env := <["gen_epoch_loss" := tadd v g_loss]> env in
  v ← load_local env "dis_epoch_loss";
  let env := <["dis_epoch_loss" := tadd v d_loss]> env in
  mret env.

(** [for idx, batch in enumerate(loader)]. *)
Fixpoint for_batches (body : nat -> batch -> locals -> M locals) (idx : nat)
    (loader : list batch) (env : locals) : M locals :=
  match loader with
  | [] => mret env
  | b :: rest =>
      env ← body idx b env;
      for_batches body (S idx) rest env
  end.

(** The two closing assignments and the return of an epoch pass. *)
Definition epoch_means (tot_len : nat) (env : locals) : M (tfloat * tfloat) :=
  g ← load_local env "g_epoch_loss";
  g ← lift (py_div g (Z.of_nat tot_len));
  let env := <["g_epoch_loss" := round3 g]> env in
  d ← load_local env "d_epoch_loss";
  d ← lift (py_div d (Z.of_nat tot_len));
  let env := <["d_epoch_loss" := round3 d]> env in
  g ← load_local env "g_epoch_loss";
  d ← load_local env "d_epoch_loss";
  mret (g, d).

(** [train_epoch]. *)
Definition train_epoch : M (tfloat * tfloat) :=
  let env := epoch_locals in
  let tot_len := length (train_dataloader self) in
  m ← self_attr "g_model";
  emit (TrainMode m);;
  m ← self_attr "d_model";
  emit (TrainMode m);;
  env ← for_batches (train_step tot_len) 0 (train_dataloader self) env;
  epoch_means tot_len env.

(** The body of the loop of [valid_epoch]. *)
Definition valid_step (idx : nat) (batch : batch) (env : locals) : M locals :=
  _ ← self_attr "update_inputs";
  '(g_loss, d_loss) ←
    raise (TypeError "get_losses() missing 1 required positional argument: batch");
  v ← load_local env "g_epoch_loss";
  let env := <["g_epoch_loss" := tadd v g_loss]> env in
  v ← load_local env "d_epoch_loss";
  let env := <["d_epoch_loss" := tadd v d_loss]> env in
  mret env.

(** [valid_epoch]. *)
Definition valid_epoch : M (tfloat * tfloat) :=
  let env := epoch_locals in
  let tot_len := length (valid_dataloader self) in
  m ← self_attr "g_model";
  emit (EvalMode m);;
  m ← self_attr "d_model";
  emit (EvalMode m);;
  env ← for_batches valid_step 0 (valid_dataloader self) env;
  epoch_means tot_len env.

(** [print_epoch]: each line is built in full before it is printed. *)
Definition print_epoch (record_dict : record_dict) : M unit :=
  e ← lift (dict_get record_dict "epoch");
  t ← lift (dict_get record_dict "train_time");
  emit (Print [e; VInt (n_epochs self); t]);;
  a ← lift (dict_get record_dict "g_train_loss");
  b ← lift (dict_get record_dict "g_valid_loss");
  emit (Print [a; b]);;
  a ← lift (dict_get record_dict "d_train_loss");
  b ← lift (dict_get record_dict "d_valid_loss");
  emit (Print [a; b]).

(** [{k: v for k, v in zip(keys, vals)}]: a later pair replaces an earlier one. *)
Definition dict_of_zip (keys : list string) (vals : list pyval) : record_dict :=
  foldl (fun d kv => <[kv.1 := kv.2]> d) ∅ (zip keys vals).

(** The checkpoint and early-stop decisions of [train], from the scheduler
    steps to the end of the loop body. *)
Definition epoch_policy (epoch : Z) (g_curr_loss d_curr_loss : tfloat)
    (st : train_state) : M (control train_state) :=
  s ← self_attr "g_scheduler";
  emit (SchedStep s g_curr_loss);;
  s ← self_attr "d_scheduler";
  emit (SchedStep s d_curr_loss);;
  st ← (if tgeb (d_best_loss st) d_curr_loss then
          let st := TrainState (records st) (cur_patience st) (g_best_loss st)
                      d_curr_loss in
          m ← self_attr "d_model";
          o ← self_attr "d_optimizer";
          save_ckpt epoch (d_ckpt self) m o;;
          mret st
        else mret st);
  if tgeb (g_best_loss st) g_curr_loss then
    let st := TrainState (records st) (cur_patience st) g_curr_loss
                (d_best_loss st) in
    m ← self_attr "g_model";
    o ← self_attr "g_optimizer";
    save_ckpt epoch (g_ckpt self) m o;;
    if early_stop self
    then mret (Next (TrainState (records st) (patience self) (g_best_loss st)
                       (d_best_loss st)))
    else mret (Next st)
  else
    if negb (early_stop self) then mret (Next st)
    else
      let st := TrainState (records st) (cur_patience st - 1) (g_best_loss st)
                  (d_best_loss st) in
      if cur_patience st =? 0 then
        emit PrintStop;;
        mret (Break st)
      else mret (Next st).

(** The body of the loop of [train], over the two epoch passes it calls. *)
Definition epoch_body (train_pass valid_pass : M (tfloat * tfloat)) (epoch : Z)
    (st : train_state) : M (control train_state) :=
  start_time ← time_time;
  '(g_train, d_train) ← train_pass;
  '(g_valid, d_valid) ← valid_pass;
  g_lr ← current_lr G;
  d_lr ← current_lr D;
  end_time ← time_time;
  let record_vals :=
    [VInt epoch; VFloat g_train; VFloat d_train; VFloat g_valid; VFloat d_valid;
     VFloat g_lr; VFloat d_lr; VStr (measure_time start_time end_time)] in
  let record_dict := dict_of_zip record_keys record_vals in
  let st := TrainState (records st ++ [record_dict])%list (cur_patience st)
              (g_best_loss st) (d_best_loss st) in
  print_epoch record_dict;;
  g_curr_loss ← lift (dict_get record_dict "gen_valid_loss");
  d_curr_loss ← lift (dict_get record_dict "dis_valid_loss");
  g_curr_loss ← lift (as_float g_curr_loss);
  d_curr_loss ← lift (as_float d_curr_loss);
  epoch_policy epoch g_curr_loss d_curr_loss st.

(** [for epoch in ...] with [break]. *)
Fixpoint for_epochs (body : Z -> train_state -> M (control train_state))
    (epochs : list Z) (st : train_state) : M train_state :=
  match epochs with
  | [] => mret st
  | epoch :: rest =>
      c ← body epoch st;
      match c with
      | Next st => for_epochs body rest st
      | Break st => mret st
      end
  end.

(** [range(1, n + 1)]. *)
Definition range_from_1 (n : Z) : list Z := Z.of_nat <$> seq 1 (Z.to_nat n).

(** [train] over the two epoch passes it calls. *)
Definition train_with (train_pass valid_pass : M (tfloat * tfloat)) : M unit :=
  let st := TrainState [] (patience self) PInf PInf in
  st ← for_epochs (epoch_body train_pass valid_pass)
         (range_from_1 (n_epochs self)) st;
  emit (JsonDump record_path (records st)).

(** [train]. *)
Definition train : M unit := train_with train_epoch valid_epoch.

End Collaborators.

(** The shuffled positions that hold a ground-truth response (an item of the
    second half of [pred + resp]) and score above one half, and those that
    hold a generated response and score above one half. *)
Definition real_above (batch_size : nat) (d_indice : list nat)
    (scores : list tfloat) : nat :=
  length (List.filter (fun p => (batch_size <=? p.1)%nat && tgtb p.2 (Fin 0.5))
            (zip d_indice scores)).

Definition fake_above (batch_size : nat) (d_indice : list nat)
    (scores : list tfloat) : nat :=
  length (List.filter (fun p => (p.1 <? batch_size)%nat && tgtb p.2 (Fin 0.5))
            (zip d_indice scores)).

(** The positions of an epoch of [tot_len] batches at which [train_step]
    enters its optimizer-step block. *)
Definition steps_in_epoch (self : Trainer) (tot_len : nat) : list Z :=
  List.filter
    (fun idx => match step_due self idx (Z.of_nat tot_len) with
                | Ok true => true
                | _ => false
                end)
    (range_from_1 (Z.of_nat tot_len)).

(** Kinds of events, for counting. *)
Definition is_opt_step (e : event) : bool :=
  match e with OptStep _ => true | _ => false end.

Definition is_save_ckpt (e : event) : bool :=
  match e with SaveCkpt _ _ _ _ => true | _ => false end.

Definition is_json_dump (e : event) : bool :=
  match e with JsonDump _ _ => true | _ => false end.

Definition count_events (p : event -> bool) (w : world) : nat :=
  length (List.filter p (events w)).

End Train.

(** ** Concrete inputs for the data loading *)

Module DataScenario.
Import Data.

(** Pretraining on a character file of three records, threshold 2. *)
Definition himym : config := Config "pretrain" "generator" "ted" 2 4.

Definition himym_file : list record :=
  [ {[ "uttr" := "hi"; "resp" := "hello" ]};
    {[ "uttr" := "how are you"; "resp" := "fine" ]};
    {[ "uttr" := "bye"; "resp" := "see you" ]} ].

Definition himym_fs (path : string) : option (list record) :=
  if String.eqb path "data/ted.json" then Some himym_file else None.

(** Plain training mode on the daily-dialogue split. *)
Definition daily : config := Config "train" "generator" "ted" 0 4.

Definition daily_file : list record :=
  [ {[ "uttr" := "hi"; "resp" := "hello" ]};
    {[ "uttr" := "bye"; "resp" := "see you" ]} ].

Definition daily_fs (path : string) : option (list record) :=
  if String.eqb path "data/train.json" then Some daily_file else None.

(** The loader [load_dataloader] builds for [daily]. *)
Definition daily_loader : DataLoader :=
  MkDataLoader (MkDataset "train" None None None daily_file) 4 false 2 true.

(** The records [process_dialogue_data] emits for two pairs, put where
    [load_data] reads them. *)
Definition acquired : list record :=
  Setup.emit_records 1200 0 [("hi", "hello"); ("bye", "see you")].

Definition acquired_fs (path : string) : option (list record) :=
  if String.eqb path "data/train.json" then Some acquired else None.

End DataScenario.

(** ** Concrete collaborators and trainers *)

Module TrainScenario.
Import Train.

(** A tokenizer that encodes a text by its length, one row per text. *)
Definition len_tokenizer (s : side) (texts : list string) : encoding :=
  Encoding ((fun t => [Z.of_nat (String.length t)]) <$> texts)
           ((fun _ => [1]) <$> texts).

(** A generator that answers every utterance with the same five letters:
    one row of output ids per row of input, each decoded to that reply. *)
Definition echo_generate (ids masks : list (list Z)) (max_new_tokens : Z)
    : list (list Z) := ids.

Definition fixed_decode (rows : list (list Z)) : list string :=
  (fun _ => "maybe") <$> rows.

(** A discriminator that scores a row by its first id. *)
Definition scoring_d_model (score : Z -> Q) (ids masks : list (list Z))
    (labels : list Z) : d_out :=
  DOut ((fun row => Fin (score (hd 0 row))) <$> ids) (Fin 0.7).

(** Fooled: the five-letter replies score high, everything else low. *)
Definition fooled (id : Z) : Q := if id =? 5 then 0.9%Q else 0.1%Q.

(** Sharp: the five-letter replies score low, everything else high. *)
Definition sharp (id : Z) : Q := if id =? 5 then 0.1%Q else 0.9%Q.

Definition reversing_randperm (state n : nat) : list nat := rev (seq 0 n).

(** A stand-in logarithm: the first-order expansion around one. *)
Definition ln1 (q : Q) : Q := (q - 1)%Q.

Definition steady_clock (k : nat) : Q := inject_Z (75 * Z.of_nat k).

Definition constant_lr (s : side) (h : list event) : tfloat := Fin 0.001.

(** Four utterances and their four responses. *)
Definition four : batch :=
  (["hi"; "how are you"; "what now"; "bye"],
   ["hello there"; "fine thanks"; "we wait"; "see you"]).

Definition one : batch := (["hi"], ["hello there"]).

(** Accumulation factor 2 over five batches of four. *)
Definition five_batches : Trainer :=
  MkTrainer 3 2 true 2 1 32 "ckpt/g.pt" "ckpt/d.pt"
    [four; four; four; four; four] [four; four].

(** One batch, accumulation factor 1. *)
Definition single_batch : Trainer :=
  MkTrainer 3 1 true 2 1 32 "ckpt/g.pt" "ckpt/d.pt" [one] [one].

(** An epoch pass that works: it returns the losses scripted for the epoch
    under way (the clock is read twice per epoch, once before the passes). *)
Definition scripted_pass (losses : list (Q * Q)) : M (tfloat * tfloat) := fun w =>
  let p := nth (Nat.div (ticks w) 2) losses (0%Q, 0%Q) in
  (Ok (Fin p.1, Fin p.2), w).

(** Validation losses 0.9, 0.95, 0.7 for both models over three epochs. *)
Definition three_valid_losses : list (Q * Q) :=
  [(0.9%Q, 0.9%Q); (0.95%Q, 0.95%Q); (0.7%Q, 0.7%Q)].

Definition three_train_losses : list (Q * Q) :=
  [(1.2%Q, 0.8%Q); (1.1%Q, 0.75%Q); (1.0%Q, 0.7%Q)].

(** The loop of [train] with the decisions alone: each epoch hands its
    scripted validation losses straight to [epoch_policy]. *)
Definition policy_only (self : Trainer) (losses : list (Q * Q)) (epoch : Z)
    (st : train_state) : M (control train_state) :=
  let p := nth (Z.to_nat (epoch - 1)) losses (0%Q, 0%Q) in
  epoch_policy self epoch (Fin p.1) (Fin p.2) st.

End TrainScenario.

(** ** Properties of the data loading *)

Module DataFacts.
Import Data DataScenario.

Lemma slice_bound_in_range (t : Z) (len : nat) :
  0 <= t <= Z.of_nat len -> slice_bound t len = Z.to_nat t.
Proof.
  intros Ht. unfold slice_bound.
  destruct (Z.ltb_spec t 0); lia.
Qed.

(** Whatever the bound, the two slices split the list. *)
Lemma slice_to_from {A} (t : Z) (l : list A) : (slice_to t l ++ slice_from t l)%list = l.
Proof. apply take_drop. Qed.

Lemma pretrain_eqb (cfg : config) :
  mode cfg = "pretrain" -> String.eqb (mode cfg) "pretrain" = true.
Proof. intros ->. reflexivity. Qed.

(** C10: in pretrain mode the splits 'train' and 'valid' are the first
    [data_threshold] records of the character file and the records after
    them: they cover disjoint index ranges of the file and their
    concatenation is the file. *)
Theorem load_data_pretrain_partition (fs : string -> option (list record))
    (cfg : config) (data : list record) :
  mode cfg = "pretrain" ->
  fs ("data/" +:+ character cfg +:+ ".json") = Some data ->
  0 <= data_threshold cfg <= Z.of_nat (length data) ->
  let n := Z.to_nat (data_threshold cfg) in
  exists tr va : list record,
    load_data fs (mode cfg) (Some (character cfg)) (Some (data_threshold cfg))
      (Some "train") = Ok tr /\
    load_data fs (mode cfg) (Some (character cfg)) (Some (data_threshold cfg))
      (Some "valid") = Ok va /\
    ds_data <$> Dataset_init fs cfg (Some "train") = Ok tr /\
    ds_data <$> Dataset_init fs cfg (Some "valid") = Ok va /\
    tr = take n data /\ va = drop n data /\
    length tr = n /\ (length tr + length va = length data)%nat /\
    (tr ++ va)%list = data /\
    (forall i : nat, (i < n)%nat -> tr !! i = data !! i) /\
    (forall j : nat, va !! j = data !! (n + j)%nat).
Proof.
  intros Hmode Hfile Ht n.
  exists (take n data), (drop n data).
  assert (Hb : slice_bound (data_threshold cfg) (length data) = n)
    by (apply slice_bound_in_range; exact Ht).
  repeat split.
  - unfold load_data, data_file, open_json.
    rewrite (pretrain_eqb _ Hmode). cbn. rewrite Hfile. cbn.
    unfold slice_to. rewrite Hb. reflexivity.
  - unfold load_data, data_file, open_json.
    rewrite (pretrain_eqb _ Hmode). cbn. rewrite Hfile. cbn.
    unfold slice_from. rewrite Hb. reflexivity.
  - unfold Dataset_init, load_data, data_file, open_json.
    rewrite (pretrain_eqb _ Hmode). cbn. rewrite Hfile. cbn.
    unfold slice_to. rewrite Hb. reflexivity.
  - unfold Dataset_init, load_data, data_file, open_json.
    rewrite (pretrain_eqb _ Hmode). cbn. rewrite Hfile. cbn.
    unfold slice_from. rewrite Hb. reflexivity.
  - rewrite length_take. subst n. lia.
  - rewrite length_take, length_drop. subst n. lia.
  - apply take_drop.
  - intros i Hi. apply lookup_take_lt. exact Hi.
  - intros j. apply lookup_drop.
Qed.

Lemma load_data_pretrain_partition_witness :
  exists tr va : list record,
    load_data himym_fs (mode himym) (Some (character himym))
      (Some (data_threshold himym)) (Some "train") = Ok tr /\
    load_data himym_fs (mode himym) (Some (character himym))
      (Some (data_threshold himym)) (Some "valid") = Ok va /\
    ds_data <$> Dataset_init himym_fs himym (Some "train") = Ok tr /\
    ds_data <$> Dataset_init himym_fs himym (Some "valid") = Ok va /\
    tr = take 2 himym_file /\ va = drop 2 himym_file /\
    length tr = 2%nat /\ (length tr + length va = length himym_file)%nat /\
    (tr ++ va)%list = himym_file /\
    (forall i : nat, (i < 2)%nat -> tr !! i = himym_file !! i) /\
    (forall j : nat, va !! j = himym_file !! (2 + j)%nat).
Proof.
  apply (load_data_pretrain_partition himym_fs himym himym_file).
  - reflexivity.
  - reflexivity.
  - simpl. lia.
Defined.

(** *** The shuffle flag *)

(** C9, as the code has it: [load_dataloader] disables shuffling whenever
    [config.mode] is a non-empty string, plain training mode included, and
    enables it only for an empty mode. *)
Theorem load_dataloader_shuffle (fs : string -> option (list record))
    (cfg : config) (split : option string) (dl : DataLoader) :
  load_dataloader fs cfg split = Ok dl ->
  dl_shuffle dl = String.eqb (mode cfg) "" /\
  (dl_shuffle dl = false <-> mode cfg <> "") /\
  dl_batch_size dl = batch_size cfg.
Proof.
  unfold load_dataloader. intros H.
  destruct (Dataset_init fs cfg split) as [ds|e]; cbn in H; [|discriminate].
  injection H as <-. cbn. unfold truthy_str.
  destruct (String.eqb_spec (mode cfg) "") as [Heq|Hne]; cbn.
  - repeat split; intros; congruence.
  - repeat split; intros; congruence.
Qed.

Lemma load_dataloader_shuffle_witness :
  dl_shuffle daily_loader = String.eqb (mode daily) "" /\
  (dl_shuffle daily_loader = false <-> mode daily <> "") /\
  dl_batch_size daily_loader = batch_size daily.
Proof.
  apply (load_dataloader_shuffle daily_fs daily (Some "train") daily_loader).
  reflexivity.
Defined.

(** In plain training mode the loader comes back with shuffling off. *)
Lemma load_dataloader_train_not_shuffled :
  mode daily = "train" /\
  dl_shuffle <$> load_dataloader daily_fs daily (Some "train") = Ok false.
Proof. split; reflexivity. Qed.

(** *** Field access *)

Lemma list_get_lookup {A} (l : list A) (i : nat) (x : A) :
  l !! i = Some x -> list_get l i = Ok x.
Proof. unfold list_get. intros ->. reflexivity. Qed.

Lemma Dataset_init_ok (fs : string -> option (list record)) (cfg : config)
    (split : option string) (data : list record) :
  fs (config_file cfg split) = Some data ->
  exists rows : list record,
    Dataset_init fs cfg split =
      Ok (MkDataset (mode cfg)
            (if String.eqb (mode cfg) "pretrain" then Some (model_type cfg) else None)
            (if String.eqb (mode cfg) "pretrain" then Some (character cfg) else None)
            (if String.eqb (mode cfg) "pretrain" then Some (data_threshold cfg) else None)
            rows) /\
    (rows = data \/ rows = slice_to (data_threshold cfg) data \/
     rows = slice_from (data_threshold cfg) data).
Proof.
  unfold config_file, Dataset_init, load_data, open_json. intros ->. cbn.
  destruct (String.eqb (mode cfg) "pretrain"); cbn.
  - destruct (bool_decide (split = Some "train")); cbn; [eauto|].
    destruct (bool_decide (split = Some "valid")); cbn; eauto.
  - eauto.
Qed.

(** C8, as the code has it: [load_data] hands over the file's records (or a
    slice of them) without looking at their fields, so the [Dataset] is built
    whatever the records hold; [__getitem__] reads [uttr], then [resp] (then
    [pred] on the discriminator-pretraining path) of the record it is asked
    for, and a missing field is a [KeyError] raised at that access. *)
Theorem getitem_reads_fields_on_access (fs : string -> option (list record))
    (cfg : config) (split : option string) (data : list record) :
  fs (config_file cfg split) = Some data ->
  exists ds : Dataset,
    Dataset_init fs cfg split = Ok ds /\
    forall (idx : nat) (r : record),
      ds_data ds !! idx = Some r ->
      Dataset_getitem ds idx =
        (uttr ← dict_get r "uttr";
         resp ← dict_get r "resp";
         if String.eqb (mode cfg) "pretrain" &&
            String.eqb (model_type cfg) "discriminator"
         then pred ← dict_get r "pred"; mret (uttr, resp, Some pred)
         else mret (uttr, resp, None)) /\
      (r !! "uttr" = None -> Dataset_getitem ds idx = Raise (KeyError "uttr")) /\
      (is_Some (r !! "uttr") -> r !! "resp" = None ->
       Dataset_getitem ds idx = Raise (KeyError "resp")).
Proof.
  intros Hfile.
  destruct (Dataset_init_ok fs cfg split data Hfile) as (rows & Hinit & _).
  eexists. split; [exact Hinit|].
  intros idx r Hr. cbn in Hr.
  assert (Hget : Dataset_getitem
            (MkDataset (mode cfg)
               (if String.eqb (mode cfg) "pretrain" then Some (model_type cfg) else None)
               (if String.eqb (mode cfg) "pretrain" then Some (character cfg) else None)
               (if String.eqb (mode cfg) "pretrain" then Some (data_threshold cfg) else None)
               rows) idx =
          (uttr ← dict_get r "uttr";
           resp ← dict_get r "resp";
           if String.eqb (mode cfg) "pretrain" &&
              String.eqb (model_type cfg) "discriminator"
           then pred ← dict_get r "pred"; mret (uttr, resp, Some pred)
           else mret (uttr, resp, None))).
  { unfold Dataset_getitem. cbn.
    destruct (String.eqb (mode cfg) "pretrain"); cbn.
    - destruct (String.eqb (model_type cfg) "discriminator"); cbn;
        rewrite (list_get_lookup _ _ _ Hr); cbn;
        destruct (dict_get r "uttr"); cbn; try reflexivity;
        destruct (dict_get r "resp"); reflexivity.
    - rewrite (list_get_lookup _ _ _ Hr); cbn.
      destruct (dict_get r "uttr"); reflexivity. }
  rewrite Hget. split; [reflexivity|]. split.
  - intros Hu. unfold dict_get. rewrite Hu. reflexivity.
  - intros [u Hu] Hv. unfold dict_get. rewrite Hu, Hv. reflexivity.
Qed.

Lemma getitem_reads_fields_on_access_witness :
  exists ds : Dataset,
    Dataset_init daily_fs daily (Some "train") = Ok ds /\
    forall (idx : nat) (r : record),
      ds_data ds !! idx = Some r ->
      Dataset_getitem ds idx =
        (uttr ← dict_get r "uttr";
         resp ← dict_get r "resp";
         if String.eqb (mode daily) "pretrain" &&
            String.eqb (model_type daily) "discriminator"
         then pred ← dict_get r "pred"; mret (uttr, resp, Some pred)
         else mret (uttr, resp, None)) /\
      (r !! "uttr" = None -> Dataset_getitem ds idx = Raise (KeyError "uttr")) /\
      (is_Some (r !! "uttr") -> r !! "resp" = None ->
       Dataset_getitem ds idx = Raise (KeyError "resp")).
Proof.
  apply (getitem_reads_fields_on_access daily_fs daily (Some "train") daily_file).
  reflexivity.
Defined.

Lemma malformed_record_fails_on_access :
  acquired = [Setup.make_record "hi" "hello"; Setup.make_record "bye" "see you"] /\
  Dataset_len <$> Dataset_init acquired_fs daily (Some "train") = Ok 2%nat /\
  (ds ← Dataset_init acquired_fs daily (Some "train"); Dataset_getitem ds 0)
    = Raise (KeyError "uttr").
Proof. repeat split; vm_compute; reflexivity. Qed.

End DataFacts.
(** ** Properties of the loss coupler *)

Module LossFacts.
Import Train TrainScenario.

(** *** The monad *)

Lemma bind_ok {A B} (m : M A) (f : A -> M B) (w w' : world) (a : A) :
  m w = (Ok a, w') -> (m ≫= f) w = f a w'.
Proof. intros H. unfold mbind, M_bind. rewrite H. reflexivity. Qed.

Lemma bind_raise {A B} (m : M A) (f : A -> M B) (w w' : world) (e : exn) :
  m w = (Raise e, w') -> (m ≫= f) w = (Raise e, w').
Proof. intros H. unfold mbind, M_bind. rewrite H. reflexivity. Qed.

(** *** Gathering by an index tensor *)

Lemma index_select_Forall2 {A} (x : list A) (index : list nat) (xs : list A) :
  index_select x index = Ok xs ->
  Forall2 (fun i a => x !! i = Some a) index xs.
Proof.
  revert xs. induction index as [|i rest IH]; intros xs H; cbn in H.
  - injection H as <-. constructor.
  - unfold list_get in H. destruct (x !! i) as [a|] eqn:Hi; cbn in H; [|discriminate].
    destruct (index_select x rest) as [ys|e]; cbn in H; [|discriminate].
    injection H as <-. constructor; [exact Hi|]. apply IH. reflexivity.
Qed.

Lemma index_select_in_range {A} (x : list A) (index : list nat) :
  Forall (fun i => (i < length x)%nat) index ->
  exists xs : list A, index_select x index = Ok xs.
Proof.
  induction 1 as [|i rest Hi _ [ys IH]]; cbn.
  - eauto.
  - apply lookup_lt_is_Some_2 in Hi as [a Ha].
    unfold list_get. rewrite Ha. cbn. rewrite IH. cbn. eauto.
Qed.

Lemma lookup_all_positions {A} (x : list A) :
  (fun i => x !! i) <$> seq 0 (length x) = Some <$> x.
Proof.
  apply list_eq. intros i. rewrite !list_lookup_fmap.
  destruct (x !! i) as [a|] eqn:Hi; cbn.
  - rewrite lookup_seq_lt by (eapply lookup_lt_Some; eassumption).
    cbn. rewrite Hi. reflexivity.
  - rewrite lookup_seq_ge by (apply lookup_ge_None; assumption). reflexivity.
Qed.

Lemma Forall2_lookup_fmap {A} (x : list A) (index : list nat) (xs : list A) :
  Forall2 (fun i a => x !! i = Some a) index xs ->
  (fun i => x !! i) <$> index = Some <$> xs.
Proof. induction 1 as [|i a rest ys Hi _ IH]; cbn; [reflexivity|]. by rewrite Hi, IH. Qed.

Lemma fmap_Some_inj {A} (l k : list A) : Some <$> l = Some <$> k -> l = k.
Proof.
  revert k. induction l as [|a l IH]; intros [|b k] H; cbn in H; try discriminate.
  - reflexivity.
  - injection H as -> H. f_equal. apply IH, H.
Qed.

(** Gathering by a permutation of all positions permutes the rows. *)
Lemma index_select_permutation {A} (x : list A) (index : list nat) :
  index ≡ₚ seq 0 (length x) ->
  exists xs : list A, index_select x index = Ok xs /\ xs ≡ₚ x.
Proof.
  intros Hp.
  assert (Hr : Forall (fun i => (i < length x)%nat) index).
  { apply Forall_forall. intros i Hi.
    rewrite Hp in Hi. apply elem_of_seq in Hi. lia. }
  destruct (index_select_in_range x index Hr) as [xs Hxs].
  exists xs. split; [exact Hxs|].
  pose proof (Forall2_lookup_fmap _ _ _ (index_select_Forall2 _ _ _ Hxs)) as Hl.
  assert (Hq : Some <$> xs ≡ₚ Some <$> x).
  { rewrite <- Hl, <- lookup_all_positions. by apply fmap_Permutation. }
  apply Permutation_sym, Permutation_map_inv in Hq as (k & Hk & Hxk).
  apply fmap_Some_inj in Hk. subst k. by symmetry.
Qed.

Lemma index_select_zip {A B} (x : list A) (y : list B) (index : list nat)
    (xs : list A) (ys : list B) :
  index_select x index = Ok xs ->
  index_select y index = Ok ys ->
  index_select (zip x y) index = Ok (zip xs ys).
Proof.
  revert xs ys. induction index as [|i rest IH]; intros xs ys Hx Hy; cbn in *.
  - injection Hx as <-. injection Hy as <-. reflexivity.
  - unfold list_get in *.
    destruct (x !! i) as [a|] eqn:Ha; cbn in Hx; [|discriminate].
    destruct (y !! i) as [b|] eqn:Hb; cbn in Hy; [|discriminate].
    destruct (index_select x rest) as [xs'|] eqn:Hxs; cbn in Hx; [|discriminate].
    destruct (index_select y rest) as [ys'|] eqn:Hys; cbn in Hy; [|discriminate].
    injection Hx as <-. injection Hy as <-.
    assert (Hz : zip x y !! i = Some (a, b)) by (apply lookup_zip_Some; done).
    rewrite Hz. cbn. rewrite (IH xs' ys') by reflexivity. reflexivity.
Qed.

Lemma index_select_length {A} (x : list A) (index : list nat) (xs : list A) :
  index_select x index = Ok xs -> length xs = length index.
Proof.
  intros H. apply index_select_Forall2, Forall2_length in H. congruence.
Qed.

(** *** The label vector *)

Lemma d_labels_of_length (batch_size : nat) :
  length (d_labels_of batch_size) = (2 * batch_size)%nat.
Proof. unfold d_labels_of. rewrite length_app, !repeat_length. lia. Qed.

Lemma d_labels_of_lookup (batch_size i : nat) (l : Z) :
  d_labels_of batch_size !! i = Some l ->
  Z.eqb 1 l = (batch_size <=? i)%nat.
Proof.
  unfold d_labels_of. intros H.
  destruct (Nat.leb_spec batch_size i) as [Hle|Hlt].
  - rewrite lookup_app_r in H by (rewrite repeat_length; lia).
    apply list_elem_of_lookup_2, list_elem_of_In, repeat_spec in H. by subst l.
  - rewrite lookup_app_l in H by (rewrite repeat_length; lia).
    apply list_elem_of_lookup_2, list_elem_of_In, repeat_spec in H. by subst l.
Qed.

Lemma count_real_labelled (batch_size : nat) (d_indice : list nat) (labels : list Z) :
  Forall2 (fun i l => d_labels_of batch_size !! i = Some l) d_indice labels ->
  forall scores : list tfloat,
    count_true ((fun x => tgtb x (Fin 0.5)) <$>
                (fst <$> List.filter snd (zip scores (Z.eqb 1 <$> labels))))
    = real_above batch_size d_indice scores.
Proof.
  unfold real_above, count_true.
  induction 1 as [|i l rest ls Hl _ IH]; intros [|s scores]; try reflexivity.
  cbn -[Z.eqb Nat.leb tgtb]. rewrite (d_labels_of_lookup _ _ _ Hl).
  destruct (batch_size <=? i)%nat; cbn -[Z.eqb Nat.leb tgtb]; [|apply IH].
  destruct (tgtb s (Fin 0.5)); cbn -[Z.eqb Nat.leb tgtb]; [f_equal|]; apply IH.
Qed.

(** *** The shuffle *)

Lemma shuffle_inputs_inv (ids masks : list (list Z)) (labels : list Z)
    (d_indice : list nat) (ids' masks' : list (list Z)) (labels' : list Z) :
  shuffle_inputs ids masks labels d_indice = Ok (ids', masks', labels') ->
  index_select ids d_indice = Ok ids' /\
  index_select masks d_indice = Ok masks' /\
  index_select labels d_indice = Ok labels'.
Proof.
  unfold shuffle_inputs. intros H.
  destruct (index_select ids d_indice); cbn in H; [|discriminate].
  destruct (index_select masks d_indice); cbn in H; [|discriminate].
  destruct (index_select labels d_indice); cbn in H; [|discriminate].
  injection H as <- <- <-. done.
Qed.

Lemma shuffle_inputs_permutation (n : nat) (ids masks : list (list Z))
    (labels : list Z) (d_indice : list nat) :
  length ids = n -> length masks = n -> length labels = n ->
  d_indice ≡ₚ seq 0 n ->
  exists (ids' masks' : list (list Z)) (labels' : list Z),
    shuffle_inputs ids masks labels d_indice = Ok (ids', masks', labels') /\
    zip (zip ids' masks') labels' ≡ₚ zip (zip ids masks) labels.
Proof.
  intros Hi Hm Hl Hp.
  destruct (index_select_permutation ids d_indice) as (ids' & Ei & _);
    [by rewrite Hi|].
  destruct (index_select_permutation masks d_indice) as (masks' & Em & _);
    [by rewrite Hm|].
  destruct (index_select_permutation labels d_indice) as (labels' & El & _);
    [by rewrite Hl|].
  exists ids', masks', labels'. split.
  - unfold shuffle_inputs. rewrite Ei, Em, El. reflexivity.
  - pose proof (index_select_zip _ _ _ _ _
                  (index_select_zip _ _ _ _ _ Ei Em) El) as Ez.
    destruct (index_select_permutation (zip (zip ids masks) labels) d_indice)
      as (zs & Ezs & Hzs).
    { rewrite !length_zip. rewrite Hi, Hm, Hl.
      replace (Nat.min (Nat.min n n) n) with n by lia. exact Hp. }
    rewrite Ez in Ezs. injection Ezs as <-. exact Hzs.
Qed.

Section Coupler.

Variable tokenizer : side -> list string -> encoding.
Variable g_generate : list (list Z) -> list (list Z) -> Z -> list (list Z).
Variable batch_decode : list (list Z) -> list string.
Variable d_model : list (list Z) -> list (list Z) -> list Z -> d_out.
Variable randperm : nat -> nat -> list nat.
Variable ln : Q -> Q.
Variable self : Trainer.

#[local] Abbreviation d_encodings_of :=
  (d_encodings_of tokenizer g_generate batch_decode self).
#[local] Abbreviation discriminator_inputs :=
  (discriminator_inputs tokenizer g_generate batch_decode randperm self).
#[local] Abbreviation get_losses :=
  (get_losses tokenizer g_generate batch_decode d_model randperm ln self).

Lemma discriminator_inputs_eq (b : batch) (w : world)
    (r : result (list (list Z) * list (list Z) * list Z)) :
  shuffle_inputs (input_ids (d_encodings_of b)) (attention_mask (d_encodings_of b))
    (d_labels_of (length b.1)) (randperm (rng w) (length b.1 * 2)) = r ->
  discriminator_inputs b w
  = (r, World (events w) (S (rng w)) (ticks w)).
Proof. intros <-. reflexivity. Qed.

Lemma get_losses_eq (b : batch) (w : world) (ids masks : list (list Z))
    (labels : list Z) :
  shuffle_inputs (input_ids (d_encodings_of b)) (attention_mask (d_encodings_of b))
    (d_labels_of (length b.1)) (randperm (rng w) (length b.1 * 2))
  = Ok (ids, masks, labels) ->
  length (logit (d_model ids masks labels)) = length ids ->
  get_losses b w
  = (Ok (generator_loss ln
           (real_above (length b.1) (randperm (rng w) (length b.1 * 2))
              (logit (d_model ids masks labels)))
           (length b.1),
         loss (d_model ids masks labels)),
     World (events w) (S (rng w)) (ticks w)).
Proof.
  intros Hs Hlen. unfold Train.get_losses.
  rewrite (bind_ok _ _ _ _ _ (discriminator_inputs_eq b w _ Hs)).
  apply shuffle_inputs_inv in Hs as (Hi & _ & Hl).
  unfold masked_select.
  rewrite length_fmap, Hlen, (index_select_length _ _ _ Hi),
    (index_select_length _ _ _ Hl), Nat.eqb_refl.
  unfold mbind, M_bind, lift, mret, M_ret.
  rewrite (count_real_labelled _ _ _ (index_select_Forall2 _ _ _ Hl)).
  reflexivity.
Qed.

(** C6: the label vector built for a batch of size B has length 2B with B
    zeros (generated) and B ones (ground truth), and the one index tensor
    drawn for the batch, a permutation of the 2B positions, gathers ids,
    masks and labels together: the shuffled rows are a rearrangement of the
    rows before the shuffle, each with its own mask and label. *)
Theorem discriminator_inputs_balanced_and_shuffled (b : batch) (w : world) :
  length (input_ids (d_encodings_of b)) = (2 * length b.1)%nat ->
  length (attention_mask (d_encodings_of b)) = (2 * length b.1)%nat ->
  randperm (rng w) (length b.1 * 2) ≡ₚ seq 0 (length b.1 * 2) ->
  length (d_labels_of (length b.1)) = (2 * length b.1)%nat /\
  count_occ Z.eq_dec (d_labels_of (length b.1)) 0 = length b.1 /\
  count_occ Z.eq_dec (d_labels_of (length b.1)) 1 = length b.1 /\
  exists (ids masks : list (list Z)) (labels : list Z),
    discriminator_inputs b w
    = (Ok (ids, masks, labels), World (events w) (S (rng w)) (ticks w)) /\
    zip (zip ids masks) labels
    ≡ₚ zip (zip (input_ids (d_encodings_of b)) (attention_mask (d_encodings_of b)))
         (d_labels_of (length b.1)).
Proof.
  intros Hi Hm Hp.
  split; [apply d_labels_of_length|].
  split; [|split].
  - unfold d_labels_of. rewrite count_occ_app.
    rewrite count_occ_repeat_eq by reflexivity.
    rewrite count_occ_repeat_neq by discriminate. lia.
  - unfold d_labels_of. rewrite count_occ_app.
    rewrite count_occ_repeat_neq by discriminate.
    rewrite count_occ_repeat_eq by reflexivity. lia.
  - destruct (shuffle_inputs_permutation (length b.1 * 2)
                (input_ids (d_encodings_of b)) (attention_mask (d_encodings_of b))
                (d_labels_of (length b.1)) (randperm (rng w) (length b.1 * 2)))
      as (ids & masks & labels & Hs & Hz);
      [lia | lia | rewrite d_labels_of_length; lia | exact Hp |].
    exists ids, masks, labels. split; [|exact Hz].
    apply discriminator_inputs_eq, Hs.
Qed.

(** C1, as the code has it: for a batch of size B the generator loss that
    [get_losses] returns is -log(k / B) where k counts the ground-truth
    responses (the rows labelled 1) whose discriminator score is above 0.5;
    the scores of the generated responses do not enter it. *)
Theorem generator_loss_counts_real_above_threshold (b : batch) (w : world) :
  length (input_ids (d_encodings_of b)) = (2 * length b.1)%nat ->
  length (attention_mask (d_encodings_of b)) = (2 * length b.1)%nat ->
  randperm (rng w) (length b.1 * 2) ≡ₚ seq 0 (length b.1 * 2) ->
  (forall (ids masks : list (list Z)) (labels : list Z),
      length (logit (d_model ids masks labels)) = length ids) ->
  exists (ids masks : list (list Z)) (labels : list Z),
    discriminator_inputs b w
    = (Ok (ids, masks, labels), World (events w) (S (rng w)) (ticks w)) /\
    get_losses b w
    = (Ok (generator_loss ln
             (real_above (length b.1) (randperm (rng w) (length b.1 * 2))
                (logit (d_model ids masks labels)))
             (length b.1),
           loss (d_model ids masks labels)),
       World (events w) (S (rng w)) (ticks w)).
Proof.
  intros Hi Hm Hp Hd.
  destruct (shuffle_inputs_permutation (length b.1 * 2)
              (input_ids (d_encodings_of b)) (attention_mask (d_encodings_of b))
              (d_labels_of (length b.1)) (randperm (rng w) (length b.1 * 2)))
    as (ids & masks & labels & Hs & _);
    [lia | lia | rewrite d_labels_of_length; lia | exact Hp |].
  exists ids, masks, labels. split.
  - apply discriminator_inputs_eq, Hs.
  - apply get_losses_eq; [exact Hs | apply Hd].
Qed.

End Coupler.

Lemma reversing_randperm_permutation (state n : nat) :
  reversing_randperm state n ≡ₚ seq 0 n.
Proof. unfold reversing_randperm. symmetry. apply Permutation_rev. Qed.

Lemma scoring_d_model_one_score_per_row (score : Z -> Q)
    (ids masks : list (list Z)) (labels : list Z) :
  length (logit (scoring_d_model score ids masks labels)) = length ids.
Proof. cbn. apply length_fmap. Qed.

Lemma discriminator_inputs_balanced_and_shuffled_witness :
  length (d_labels_of 4) = 8%nat /\
  count_occ Z.eq_dec (d_labels_of 4) 0 = 4%nat /\
  count_occ Z.eq_dec (d_labels_of 4) 1 = 4%nat /\
  exists (ids masks : list (list Z)) (labels : list Z),
    discriminator_inputs len_tokenizer echo_generate fixed_decode
      reversing_randperm five_batches four world0
    = (Ok (ids, masks, labels), World [] 1 0) /\
    zip (zip ids masks) labels
    ≡ₚ zip (zip (input_ids (d_encodings_of len_tokenizer echo_generate
                              fixed_decode five_batches four))
                (attention_mask (d_encodings_of len_tokenizer echo_generate
                                   fixed_decode five_batches four)))
         (d_labels_of 4).
Proof.
  apply (discriminator_inputs_balanced_and_shuffled len_tokenizer echo_generate
           fixed_decode reversing_randperm five_batches four world0).
  - reflexivity.
  - reflexivity.
  - apply reversing_randperm_permutation.
Defined.

Lemma generator_loss_counts_real_above_threshold_witness :
  exists (ids masks : list (list Z)) (labels : list Z),
    discriminator_inputs len_tokenizer echo_generate fixed_decode
      reversing_randperm five_batches four world0
    = (Ok (ids, masks, labels), World [] 1 0) /\
    get_losses len_tokenizer echo_generate fixed_decode (scoring_d_model sharp)
      reversing_randperm ln1 five_batches four world0
    = (Ok (generator_loss ln1
             (real_above 4 (reversing_randperm 0 8)
                (logit (scoring_d_model sharp ids masks labels)))
             4,
           loss (scoring_d_model sharp ids masks labels)),
       World [] 1 0).
Proof.
  apply (generator_loss_counts_real_above_threshold len_tokenizer echo_generate
           fixed_decode (scoring_d_model sharp) reversing_randperm ln1
           five_batches four world0).
  - reflexivity.
  - reflexivity.
  - apply reversing_randperm_permutation.
  - apply scoring_d_model_one_score_per_row.
Defined.

(** One utterance whose generated reply fools the discriminator (score 0.9)
    while the ground-truth response scores 0.1: one fake above the
    threshold, no real one, and the loss returned is plus infinity where
    -log(1 / 1) is finite whatever the logarithm. *)
Lemma generator_loss_misses_fooled_fakes :
  get_losses len_tokenizer echo_generate fixed_decode (scoring_d_model fooled)
    reversing_randperm ln1 single_batch one world0
  = (Ok (PInf, Fin 0.7), World [] 1 0) /\
  discriminator_inputs len_tokenizer echo_generate fixed_decode
    reversing_randperm single_batch one world0
  = (Ok ([[11]; [5]], [[1]; [1]], [1; 0]), World [] 1 0) /\
  logit (scoring_d_model fooled [[11]; [5]] [[1]; [1]] [1; 0])
  = [Fin 0.1; Fin 0.9] /\
  fake_above 1 (reversing_randperm 0 2) [Fin 0.1; Fin 0.9] = 1%nat /\
  real_above 1 (reversing_randperm 0 2) [Fin 0.1; Fin 0.9] = 0%nat /\
  (forall ln : Q -> Q, generator_loss ln 1 1 = Fin (- ln 1)%Q).
Proof. repeat split; vm_compute; reflexivity. Qed.

End LossFacts.
(** ** Properties of the epoch passes and of the session *)

Module EpochFacts.
Import Train TrainScenario LossFacts.

Lemma self_attr_ok (name : string) (o : obj) (w : world) :
  trainer_objects !! name = Some o -> self_attr name w = (Ok o, w).
Proof. unfold self_attr. intros ->. reflexivity. Qed.

Lemma self_attr_missing (name : string) (w : world) :
  trainer_objects !! name = None ->
  self_attr name w = (Raise (AttributeError name), w).
Proof. unfold self_attr. intros ->. reflexivity. Qed.

Lemma lookup_g_model : trainer_objects !! "g_model" = Some (Model G).
Proof. vm_compute. reflexivity. Qed.

Lemma lookup_d_model : trainer_objects !! "d_model" = Some (Model D).
Proof. vm_compute. reflexivity. Qed.

Lemma lookup_gen_optimizer : trainer_objects !! "gen_optimizer" = None.
Proof. vm_compute. reflexivity. Qed.

Lemma lookup_update_inputs : trainer_objects !! "update_inputs" = None.
Proof. vm_compute. reflexivity. Qed.

Lemma epoch_locals_gen : epoch_locals !! "gen_epoch_loss" = None.
Proof. vm_compute. reflexivity. Qed.

Lemma epoch_locals_g : epoch_locals !! "g_epoch_loss" = Some (Fin 0).
Proof. vm_compute. reflexivity. Qed.

Lemma lift_eq {A} (r : result A) (w : world) : lift r w = (r, w).
Proof. reflexivity. Qed.

Lemma raise_eq {A} (e : exn) (w : world) : (raise e : M A) w = (Raise e, w).
Proof. reflexivity. Qed.

Lemma ret_eq {A} (a : A) (w : world) : (mret a : M A) w = (Ok a, w).
Proof. reflexivity. Qed.

Lemma load_local_some (env : locals) (name : string) (v : tfloat) (w : world) :
  env !! name = Some v -> load_local env name w = (Ok v, w).
Proof. unfold load_local. intros ->. reflexivity. Qed.

Lemma load_local_none (env : locals) (name : string) (w : world) :
  env !! name = None -> load_local env name w = (Raise (UnboundLocalError name), w).
Proof. unfold load_local. intros ->. reflexivity. Qed.

Lemma emit_eq (e : event) (w : world) :
  emit e w = (Ok tt, World (e :: events w) (rng w) (ticks w)).
Proof. reflexivity. Qed.

Lemma for_batches_first_raises (body : nat -> batch -> locals -> M locals)
    (idx : nat) (b : batch) (rest : list batch) (env : locals) (w w' : world)
    (e : exn) :
  body idx b env w = (Raise e, w') ->
  for_batches body idx (b :: rest) env w = (Raise e, w').
Proof. intros H. cbn [for_batches]. apply bind_raise, H. Qed.

Section Passes.

Variable tokenizer : side -> list string -> encoding.
Variable g_generate : list (list Z) -> list (list Z) -> Z -> list (list Z).
Variable batch_decode : list (list Z) -> list string.
Variable d_model : list (list Z) -> list (list Z) -> list Z -> d_out.
Variable randperm : nat -> nat -> list nat.
Variable ln : Q -> Q.
Variable clock : nat -> Q.
Variable lr : side -> list event -> tfloat.
Variable self : Trainer.

#[local] Abbreviation get_losses :=
  (get_losses tokenizer g_generate batch_decode d_model randperm ln self).
#[local] Abbreviation train_step :=
  (train_step tokenizer g_generate batch_decode d_model randperm ln self).
#[local] Abbreviation train_epoch :=
  (train_epoch tokenizer g_generate batch_decode d_model randperm ln self).
#[local] Abbreviation train :=
  (train tokenizer g_generate batch_decode d_model randperm ln clock lr self).

(** [get_losses] draws one permutation and touches nothing else. *)
Lemma get_losses_world (b : batch) (w : world) :
  (get_losses b w).2 = World (events w) (S (rng w)) (ticks w).
Proof.
  unfold Train.get_losses.
  unfold mbind at 1. unfold M_bind.
  rewrite (discriminator_inputs_eq _ _ _ _ _ b w _ eq_refl).
  destruct (shuffle_inputs _ _ _ _) as [[[ids masks] labels]|e]; [|reflexivity].
  unfold mbind, M_bind, lift.
  destruct (masked_select _ _); reflexivity.
Qed.

(** Whatever the batch, the body of the training loop ends in an exception:
    the one [get_losses] raised, or one of its own after the two backward
    passes. *)
Lemma train_step_raises (tot_len idx : nat) (b : batch) (env : locals) (w : world) :
  env !! "gen_epoch_loss" = None ->
  exists (e : exn) (w' : world),
    train_step tot_len idx b env w = (Raise e, w') /\
    (((get_losses b w).1 = Raise e /\ events w' = events w) \/
     exists g d : tfloat,
       (get_losses b w).1 = Ok (g, d) /\
       events w' =
         Backward D (tdiv d (of_Z (iters_to_accumulate self))) ::
         Backward G (tdiv g (of_Z (iters_to_accumulate self))) :: events w).
Proof.
  intros Henv. unfold Train.train_step.
  pose proof (get_losses_world b w) as Hw.
  destruct (get_losses b w) as [[[g d]|e] w1] eqn:Hg; cbn in Hw; subst w1.
  - rewrite (bind_ok _ _ _ _ _ Hg).
    rewrite (bind_ok _ _ _ _ _ (emit_eq _ _)).
    rewrite (bind_ok _ _ _ _ _ (emit_eq _ _)).
    cbn [events rng ticks].
    destruct (step_due self (Z.of_nat idx + 1) (Z.of_nat tot_len)) as [due|e] eqn:Hdue.
    + rewrite (bind_ok _ _ _ _ _ (lift_eq _ _)).
      destruct due.
      * eexists _, _. split.
        -- apply bind_raise. apply bind_raise.
           apply self_attr_missing, lookup_gen_optimizer.
        -- right. exists g, d. split; reflexivity.
      * rewrite (bind_ok _ _ _ _ _ (ret_eq _ _)).
        eexists _, _. split.
        -- apply bind_raise. unfold load_local. rewrite Henv. reflexivity.
        -- right. exists g, d. split; reflexivity.
    + eexists _, _. split; [apply bind_raise; reflexivity|].
      right. exists g, d. split; reflexivity.
  - eexists _, _. split; [apply bind_raise; exact Hg|]. left. done.
Qed.

(** Once [get_losses] has returned, the body of the training loop runs the
    two backward passes on the losses divided by the accumulation factor, and
    nothing else that the world sees. *)
Lemma train_step_events (tot_len idx : nat) (b : batch) (env : locals) (w : world)
    (g d : tfloat) :
  (get_losses b w).1 = Ok (g, d) ->
  events (train_step tot_len idx b env w).2 =
    Backward D (tdiv d (of_Z (iters_to_accumulate self))) ::
    Backward G (tdiv g (of_Z (iters_to_accumulate self))) :: events w.
Proof.
  intros Hr. unfold Train.train_step.
  pose proof (get_losses_world b w) as Hw.
  destruct (get_losses b w) as [r w1] eqn:Hg. cbn in Hw, Hr. subst r w1.
  rewrite (bind_ok _ _ _ _ _ Hg).
  rewrite (bind_ok _ _ _ _ _ (emit_eq _ _)).
  rewrite (bind_ok _ _ _ _ _ (emit_eq _ _)).
  cbn [events rng ticks].
  destruct (step_due self (Z.of_nat idx + 1) (Z.of_nat tot_len)) as [due|e] eqn:Hdue.
  - rewrite (bind_ok _ _ _ _ _ (lift_eq _ _)).
    destruct due.
    + rewrite (bind_raise _ _ _ _ _
                 (bind_raise _ _ _ _ _
                    (self_attr_missing _ _ lookup_gen_optimizer))).
      reflexivity.
    + rewrite (bind_ok _ _ _ _ _ (ret_eq _ _)).
      destruct (env !! "gen_epoch_loss") as [v|] eqn:Hgen.
      * rewrite (bind_ok _ _ _ _ _ (load_local_some _ _ _ _ Hgen)).
        cbv zeta.
        destruct (<["gen_epoch_loss" :=
                      tadd v (tdiv g (of_Z (iters_to_accumulate self)))]> env
                  !! "dis_epoch_loss") as [v'|] eqn:Hdis.
        -- rewrite (bind_ok _ _ _ _ _ (load_local_some _ _ _ _ Hdis)). reflexivity.
        -- rewrite (bind_raise _ _ _ _ _ (load_local_none _ _ _ Hdis)). reflexivity.
      * rewrite (bind_raise _ _ _ _ _ (load_local_none _ _ _ Hgen)). reflexivity.
  - rewrite (bind_raise _ _ _ _ _ (lift_eq _ _)). reflexivity.
Qed.

Lemma get_losses_result_rng (b : batch) (w v : world) :
  rng w = rng v -> (get_losses b w).1 = (get_losses b v).1.
Proof.
  intros Hr. unfold Train.get_losses.
  unfold mbind at 1 3. unfold M_bind.
  rewrite !(discriminator_inputs_eq _ _ _ _ _ b _ _ eq_refl).
  rewrite Hr. destruct (shuffle_inputs _ _ _ _) as [[[ids masks] labels]|e'];
    [|reflexivity].
  unfold mbind, M_bind, lift. destruct (masked_select _ _); reflexivity.
Qed.

(** [train_epoch] never returns: it raises on its first batch (or on the
    division by the number of batches when there is none), before any
    optimizer step. *)
Lemma train_epoch_raises (w : world) :
  exists (e : exn) (w' : world),
    train_epoch w = (Raise e, w') /\
    ((events w' = TrainMode (Model D) :: TrainMode (Model G) :: events w /\
      (train_dataloader self = [] \/
       exists b : batch,
         head (train_dataloader self) = Some b /\ (get_losses b w).1 = Raise e)) \/
     exists (b : batch) (g d : tfloat),
       head (train_dataloader self) = Some b /\
       (get_losses b w).1 = Ok (g, d) /\
       events w' =
         Backward D (tdiv d (of_Z (iters_to_accumulate self))) ::
         Backward G (tdiv g (of_Z (iters_to_accumulate self))) ::
         TrainMode (Model D) :: TrainMode (Model G) :: events w).
Proof.
  unfold Train.train_epoch.
  rewrite (bind_ok _ _ _ _ _ (self_attr_ok _ _ _ lookup_g_model)).
  rewrite (bind_ok _ _ _ _ _ (emit_eq _ _)).
  rewrite (bind_ok _ _ _ _ _ (self_attr_ok _ _ _ lookup_d_model)).
  rewrite (bind_ok _ _ _ _ _ (emit_eq _ _)).
  cbn [events rng ticks].
  destruct (train_dataloader self) as [|b rest].
  - cbn [for_batches length]. rewrite (bind_ok _ _ _ _ _ (ret_eq _ _)).
    unfold epoch_means, load_local. rewrite epoch_locals_g.
    rewrite (bind_ok _ _ _ _ _ (ret_eq _ _)).
    eexists _, _. split; [apply bind_raise; reflexivity|].
    left. split; [reflexivity|]. left. reflexivity.
  - destruct (train_step_raises (length (b :: rest)) 0 b epoch_locals
                (World (TrainMode (Model D) :: TrainMode (Model G) :: events w)
                   (rng w) (ticks w)) epoch_locals_gen)
      as (e & w' & Hstep & Hev).
    exists e, w'. split.
    + apply bind_raise, for_batches_first_raises, Hstep.
    + destruct Hev as [[Hg Hev]|(g & d & Hg & Hev)].
      * left. split; [exact Hev|]. right. exists b. split; [reflexivity|].
        rewrite <- Hg. apply get_losses_result_rng. reflexivity.
      * right. exists b, g, d. split; [reflexivity|]. split; [|exact Hev].
        rewrite <- Hg. apply get_losses_result_rng. reflexivity.
Qed.

(** [valid_epoch] never returns either. *)
Lemma valid_epoch_raises (w : world) :
  exists e : exn,
    valid_epoch self w
    = (Raise e, World (EvalMode (Model D) :: EvalMode (Model G) :: events w)
                  (rng w) (ticks w)) /\
    (e = ZeroDivisionError \/ e = AttributeError "update_inputs").
Proof.
  unfold valid_epoch.
  rewrite (bind_ok _ _ _ _ _ (self_attr_ok _ _ _ lookup_g_model)).
  rewrite (bind_ok _ _ _ _ _ (emit_eq _ _)).
  rewrite (bind_ok _ _ _ _ _ (self_attr_ok _ _ _ lookup_d_model)).
  rewrite (bind_ok _ _ _ _ _ (emit_eq _ _)).
  cbn [events rng ticks].
  destruct (valid_dataloader self) as [|b rest].
  - cbn [for_batches length]. rewrite (bind_ok _ _ _ _ _ (ret_eq _ _)).
    unfold epoch_means, load_local. rewrite epoch_locals_g.
    rewrite (bind_ok _ _ _ _ _ (ret_eq _ _)).
    eexists. split; [apply bind_raise; reflexivity|]. left. reflexivity.
  - eexists. split; [|right; reflexivity].
    apply bind_raise, for_batches_first_raises. unfold valid_step.
    apply bind_raise, self_attr_missing, lookup_update_inputs.
Qed.

Lemma range_from_1_cons (n : Z) :
  1 <= n -> exists rest : list Z, range_from_1 n = 1 :: rest.
Proof.
  intros Hn. unfold range_from_1.
  destruct (Z.to_nat n) as [|k] eqn:Hk; [lia|].
  cbn. eauto.
Qed.

(** The record of an epoch has no key [train_time], whatever its values. *)
Lemma record_has_no_train_time (v1 v2 v3 v4 v5 v6 v7 v8 : pyval) :
  dict_of_zip record_keys [v1; v2; v3; v4; v5; v6; v7; v8] !! "train_time" = None.
Proof. vm_compute. reflexivity. Qed.

Lemma record_has_epoch (v1 v2 v3 v4 v5 v6 v7 v8 : pyval) :
  dict_of_zip record_keys [v1; v2; v3; v4; v5; v6; v7; v8] !! "epoch" = Some v1.
Proof. vm_compute. reflexivity. Qed.

(** [print_epoch] raises on every record [train] builds, before it prints. *)
Lemma print_epoch_raises (v1 v2 v3 v4 v5 v6 v7 v8 : pyval) (w : world) :
  print_epoch self (dict_of_zip record_keys [v1; v2; v3; v4; v5; v6; v7; v8]) w
  = (Raise (KeyError "train_time"), w).
Proof.
  unfold print_epoch, dict_get.
  rewrite record_has_epoch, record_has_no_train_time. reflexivity.
Qed.

Lemma current_lr_eq (s : side) (w : world) :
  current_lr lr s w = (Ok (lr s (history w)), w).
Proof. reflexivity. Qed.

Lemma time_time_eq (w : world) :
  time_time clock w = (Ok (clock (ticks w)), World (events w) (rng w) (S (ticks w))).
Proof. reflexivity. Qed.

(** The body of the epoch loop raises, even over epoch passes that work. *)
Lemma epoch_body_raises (train_pass valid_pass : M (tfloat * tfloat)) (epoch : Z)
    (st : train_state) (w : world) :
  exists (e : exn) (w' : world),
    epoch_body clock lr self train_pass valid_pass epoch st w = (Raise e, w') /\
    ((train_pass (World (events w) (rng w) (S (ticks w)))).1 = Raise e \/
     e = KeyError "train_time" \/
     exists (gd : tfloat * tfloat) (w2 : world),
       train_pass (World (events w) (rng w) (S (ticks w))) = (Ok gd, w2) /\
       (valid_pass w2).1 = Raise e).
Proof.
  unfold epoch_body.
  rewrite (bind_ok _ _ _ _ _ (time_time_eq w)).
  destruct (train_pass _) as [[[g_train d_train]|e] w2] eqn:Htp.
  - rewrite (bind_ok _ _ _ _ _ Htp).
    destruct (valid_pass w2) as [[[g_valid d_valid]|e] w3] eqn:Hvp.
    + rewrite (bind_ok _ _ _ _ _ Hvp).
      rewrite (bind_ok _ _ _ _ _ (current_lr_eq G w3)).
      rewrite (bind_ok _ _ _ _ _ (current_lr_eq D w3)).
      rewrite (bind_ok _ _ _ _ _ (time_time_eq w3)).
      eexists _, _. split; [apply bind_raise, print_epoch_raises|].
      right. left. reflexivity.
    + eexists _, _. split; [apply bind_raise; exact Hvp|].
      right. right. exists (g_train, d_train), w2. rewrite Hvp. done.
  - eexists _, _. split; [apply bind_raise; exact Htp|]. left. reflexivity.
Qed.

(** With at least one epoch to run, [train] raises in the first one, even
    over epoch passes that work. *)
Lemma train_with_raises (train_pass valid_pass : M (tfloat * tfloat)) (w : world) :
  1 <= n_epochs self ->
  exists (e : exn) (w' : world),
    train_with clock lr self train_pass valid_pass w = (Raise e, w').
Proof.
  intros Hn. unfold train_with.
  destruct (range_from_1_cons _ Hn) as [rest ->].
  destruct (epoch_body_raises train_pass valid_pass 1
              (TrainState [] (patience self) PInf PInf) w) as (e & w' & He & _).
  exists e, w'. apply bind_raise. cbn [for_epochs]. apply bind_raise, He.
Qed.

(** With no ground-truth score above the threshold the loss is plus
    infinity, and dividing it by a positive accumulation factor leaves it so. *)
Lemma generator_loss_zero_count (batch_size : nat) :
  (0 < batch_size)%nat -> generator_loss ln 0 batch_size = PInf.
Proof.
  intros HB. unfold generator_loss, of_nat, of_Z, tdiv.
  assert (Hnz : Qeq_bool (inject_Z (Z.of_nat batch_size)) 0 = false).
  { destruct (Qeq_bool _ 0) eqn:E; [|reflexivity].
    apply Qeq_bool_iff in E. unfold Qeq in E. cbn in E. lia. }
  rewrite Hnz. cbn [tlog].
  assert (Hz : Qeq_bool (inject_Z (Z.of_nat 0) / inject_Z (Z.of_nat batch_size)) 0
               = true).
  { apply Qeq_bool_iff. unfold Qdiv. apply Qmult_0_l. }
  rewrite Hz. reflexivity.
Qed.

Lemma tdiv_PInf_positive (n : Z) : 0 < n -> tdiv PInf (of_Z n) = PInf.
Proof.
  intros Hn. unfold tdiv, of_Z, Qltb.
  assert (H : Qle_bool 0 (inject_Z n) = true).
  { apply Qle_bool_iff. unfold Qle. cbn. lia. }
  rewrite H. reflexivity.
Qed.

(** C2, as the code has it: when no ground-truth response of the batch
    scores above the threshold, [get_losses] returns plus infinity as the
    generator loss, without raising and without clamping it; the loop body of
    [train_epoch] divides it by the accumulation factor, which leaves it
    infinite, and that is the value it hands to the backward pass. *)
Theorem degenerate_generator_loss_is_infinite (b : batch) (w w1 : world)
    (ids masks : list (list Z)) (labels : list Z) :
  (0 < length b.1)%nat ->
  0 < iters_to_accumulate self ->
  discriminator_inputs tokenizer g_generate batch_decode randperm self b w
  = (Ok (ids, masks, labels), w1) ->
  length (logit (d_model ids masks labels)) = length ids ->
  real_above (length b.1) (randperm (rng w) (length b.1 * 2))
    (logit (d_model ids masks labels)) = 0%nat ->
  get_losses b w = (Ok (PInf, loss (d_model ids masks labels)), w1) /\
  is_finite PInf = false /\
  forall (tot_len idx : nat) (env : locals),
    events (train_step tot_len idx b env w).2 =
      Backward D (tdiv (loss (d_model ids masks labels))
                    (of_Z (iters_to_accumulate self))) ::
      Backward G PInf :: events w.
Proof.
  intros HB HN Hin Hlen Hzero.
  rewrite (discriminator_inputs_eq _ _ _ _ _ b w _ eq_refl) in Hin.
  injection Hin as Hs <-.
  pose proof (get_losses_eq _ _ _ d_model _ ln _ b w ids masks labels Hs Hlen) as Hg.
  rewrite Hzero, (generator_loss_zero_count _ HB) in Hg.
  split; [exact Hg|]. split; [reflexivity|].
  intros tot_len idx env.
  rewrite (train_step_events tot_len idx b env w PInf
             (loss (d_model ids masks labels))) by (rewrite Hg; reflexivity).
  rewrite (tdiv_PInf_positive _ HN). reflexivity.
Qed.

End Passes.

Lemma degenerate_generator_loss_is_infinite_witness :
  get_losses len_tokenizer echo_generate fixed_decode (scoring_d_model fooled)
    reversing_randperm ln1 single_batch one world0
  = (Ok (PInf, loss (scoring_d_model fooled [[11]; [5]] [[1]; [1]] [1; 0])),
     World [] 1 0) /\
  is_finite PInf = false /\
  forall (tot_len idx : nat) (env : locals),
    events (train_step len_tokenizer echo_generate fixed_decode
              (scoring_d_model fooled) reversing_randperm ln1 single_batch
              tot_len idx one env world0).2 =
      Backward D (tdiv (loss (scoring_d_model fooled [[11]; [5]] [[1]; [1]] [1; 0]))
                    (of_Z (iters_to_accumulate single_batch))) ::
      Backward G PInf :: events world0.
Proof.
  apply (degenerate_generator_loss_is_infinite len_tokenizer echo_generate
           fixed_decode (scoring_d_model fooled) reversing_randperm ln1
           single_batch one world0 (World [] 1 0)
           [[11]; [5]] [[1]; [1]] [1; 0]).
  - simpl. lia.
  - simpl. lia.
  - reflexivity.
  - reflexivity.
  - reflexivity.
Defined.

(** A batch on which the discriminator rates the ground-truth response
    below the threshold: the loss that reaches the backward pass is plus
    infinity, not a finite penalty. *)
Lemma infinite_loss_reaches_backward :
  history (train_epoch len_tokenizer echo_generate fixed_decode
             (scoring_d_model fooled) reversing_randperm ln1 single_batch world0).2
  = [TrainMode (Model G); TrainMode (Model D); Backward G PInf;
     Backward D (Fin 0.7)] /\
  is_finite PInf = false.
Proof. split; vm_compute; reflexivity. Qed.

(** *** The accumulation schedule *)

Lemma range_from_1_succ (m : nat) :
  range_from_1 (Z.of_nat (S m)) = (range_from_1 (Z.of_nat m) ++ [Z.of_nat m + 1])%list.
Proof.
  unfold range_from_1. rewrite !Nat2Z.id, seq_S, fmap_app. cbn.
  do 2 f_equal. lia.
Qed.

Lemma range_from_1_bounds (m : nat) (idx : Z) :
  idx ∈ range_from_1 (Z.of_nat m) -> 1 <= idx <= Z.of_nat m.
Proof.
  unfold range_from_1. rewrite Nat2Z.id. intros H.
  apply list_elem_of_fmap in H as (i & -> & Hi). apply elem_of_seq in Hi. lia.
Qed.

(** The multiples of [n] among the positions 1..m. *)
Lemma multiples_up_to (n : Z) (m : nat) :
  0 < n ->
  Z.of_nat (length (List.filter (fun idx => idx mod n =? 0)
                      (range_from_1 (Z.of_nat m))))
  = Z.of_nat m / n.
Proof.
  intros Hn. induction m as [|m IH].
  - cbn. rewrite Z.div_0_l by lia. reflexivity.
  - rewrite range_from_1_succ, List.filter_app, length_app, Nat2Z.inj_add, IH.
    cbn [List.filter]. replace (Z.of_nat (S m)) with (Z.of_nat m + 1) by lia.
    pose proof (Z.div_mod (Z.of_nat m) n ltac:(lia)) as E1.
    pose proof (Z.mod_pos_bound (Z.of_nat m) n Hn) as B1.
    pose proof (Z.div_mod (Z.of_nat m + 1) n ltac:(lia)) as E2.
    pose proof (Z.mod_pos_bound (Z.of_nat m + 1) n Hn) as B2.
    destruct (Z.eqb_spec ((Z.of_nat m + 1) mod n) 0) as [Hz|Hz]; cbn [length]; nia.
Qed.

Lemma step_due_eq (self : Trainer) (idx tot_len : Z) :
  iters_to_accumulate self <> 0 ->
  step_due self idx tot_len
  = Ok ((idx mod iters_to_accumulate self =? 0) || (idx =? tot_len)).
Proof.
  intros HN. unfold step_due, py_mod.
  destruct (Z.eqb_spec (iters_to_accumulate self) 0); [contradiction|reflexivity].
Qed.

(** With accumulation factor N >= 1 and T batches, the loop condition of
    [train_epoch] holds at ceil(T / N) positions: once per full group of N
    and once more for a shorter last group. *)
Lemma steps_in_epoch_count (self : Trainer) (tot_len : nat) :
  0 < iters_to_accumulate self ->
  Z.of_nat (length (steps_in_epoch self tot_len))
  = (Z.of_nat tot_len + iters_to_accumulate self - 1) / iters_to_accumulate self.
Proof.
  intros HN. unfold steps_in_epoch.
  destruct tot_len as [|m].
  - cbn. symmetry. apply Z.div_small. lia.
  - rewrite range_from_1_succ, List.filter_app, length_app, Nat2Z.inj_add.
    replace (Z.of_nat (S m)) with (Z.of_nat m + 1) by lia.
    cbn [List.filter]. rewrite step_due_eq by lia.
    rewrite Z.eqb_refl, orb_true_r. cbn [length].
    rewrite (List.filter_ext_in
               (fun idx => match step_due self idx (Z.of_nat m + 1) with
                           | Ok true => true
                           | _ => false
                           end)
               (fun idx => idx mod iters_to_accumulate self =? 0)).
    + rewrite (multiples_up_to _ m HN).
      replace (Z.of_nat m + 1 + iters_to_accumulate self - 1)
        with (Z.of_nat m + 1 * iters_to_accumulate self) by lia.
      rewrite Z.div_add by lia. lia.
    + intros idx Hidx. apply list_elem_of_In, range_from_1_bounds in Hidx.
      rewrite step_due_eq by lia.
      destruct (Z.eqb_spec idx (Z.of_nat m + 1)); [lia|].
      rewrite orb_false_r. destruct (_ =? 0); reflexivity.
Qed.

(** Accumulation factor 2 over five batches: the condition holds at batches
    2, 4 and 5. *)
Lemma steps_in_epoch_five_batches :
  steps_in_epoch five_batches 5 = [2; 4; 5].
Proof. reflexivity. Qed.

(** *** The checkpoint decisions alone *)

(** Fed the validation losses 0.9, 0.95, 0.7 directly, the decisions of
    [train] write both checkpoints at epochs 1 and 3 and at no other. *)
Lemma policy_checkpoints_at_epochs_1_and_3 :
  List.filter is_save_ckpt
    (history (for_epochs (policy_only five_batches three_valid_losses) [1; 2; 3]
                (TrainState [] 2 PInf PInf) world0).2)
  = [SaveCkpt 1 "ckpt/d.pt" (Model D) (Optimizer D);
     SaveCkpt 1 "ckpt/g.pt" (Model G) (Optimizer G);
     SaveCkpt 3 "ckpt/d.pt" (Model D) (Optimizer D);
     SaveCkpt 3 "ckpt/g.pt" (Model G) (Optimizer G)].
Proof. vm_compute. reflexivity. Qed.

(** *** The passes and the session on concrete trainers *)

(** C3: accumulation factor 2 over five batches.  The pass raises on its
    first batch, at the update of an accumulator that was never bound, and no
    optimizer step or gradient reset has happened. *)
Theorem train_epoch_five_batches_takes_no_step :
  (train_epoch len_tokenizer echo_generate fixed_decode (scoring_d_model sharp)
     reversing_randperm ln1 five_batches world0).1
  = Raise (UnboundLocalError "gen_epoch_loss") /\
  history (train_epoch len_tokenizer echo_generate fixed_decode
             (scoring_d_model sharp) reversing_randperm ln1 five_batches world0).2
  = [TrainMode (Model G); TrainMode (Model D); Backward G (Fin (0 # 8));
     Backward D (Fin (7 # 20))] /\
  count_events is_opt_step
    (train_epoch len_tokenizer echo_generate fixed_decode (scoring_d_model sharp)
       reversing_randperm ln1 five_batches world0).2 = 0%nat /\
  length (steps_in_epoch five_batches 5) = 3%nat /\
  (train_epoch len_tokenizer echo_generate fixed_decode (scoring_d_model sharp)
     reversing_randperm ln1 single_batch world0).1
  = Raise (AttributeError "gen_optimizer").
Proof. repeat split; vm_compute; reflexivity. Qed.

(** C7: the validation pass puts both models in evaluation mode and then
    raises on its first batch, at the call of a method the trainer does not
    have; it returns no losses. *)
Theorem valid_epoch_raises_on_first_batch :
  valid_epoch five_batches world0
  = (Raise (AttributeError "update_inputs"),
     World [EvalMode (Model D); EvalMode (Model G)] 0 0).
Proof. vm_compute. reflexivity. Qed.

(** C4: three epochs whose passes work and report the validation losses
    0.9, 0.95, 0.7.  The session raises in the first epoch, when the summary
    reads a key the record does not have: no checkpoint is written, where the
    decisions alone would write them at epochs 1 and 3.  With the trainer's
    own passes it raises earlier still. *)
Theorem train_writes_no_checkpoint :
  train_with steady_clock constant_lr five_batches
    (scripted_pass three_train_losses) (scripted_pass three_valid_losses) world0
  = (Raise (KeyError "train_time"), World [] 0 2) /\
  count_events is_save_ckpt
    (train_with steady_clock constant_lr five_batches
       (scripted_pass three_train_losses) (scripted_pass three_valid_losses)
       world0).2 = 0%nat /\
  count_events is_save_ckpt
    (train len_tokenizer echo_generate fixed_decode (scoring_d_model sharp)
       reversing_randperm ln1 steady_clock constant_lr five_batches world0).2
  = 0%nat.
Proof. repeat split; vm_compute; reflexivity. Qed.

(** C5: early stopping on, patience 2, three epochs.  The session raises in
    its first epoch, before the patience counter is read or written, and the
    record file is never written. *)
Theorem train_persists_no_record :
  early_stop five_batches = true /\
  (train len_tokenizer echo_generate fixed_decode (scoring_d_model sharp)
     reversing_randperm ln1 steady_clock constant_lr five_batches world0).1
  = Raise (UnboundLocalError "gen_epoch_loss") /\
  count_events is_json_dump
    (train len_tokenizer echo_generate fixed_decode (scoring_d_model sharp)
       reversing_randperm ln1 steady_clock constant_lr five_batches world0).2
  = 0%nat /\
  count_events is_json_dump
    (train_with steady_clock constant_lr five_batches
       (scripted_pass three_train_losses) (scripted_pass three_valid_losses)
       world0).2 = 0%nat.
Proof. repeat split; vm_compute; reflexivity. Qed.

End EpochFacts.
